(** * The catalog's <nav-drawer> layout element

    A shallow embedding of [catalog/src/components/nav-drawer.ts]: the
    [NavDrawer] element, the three shared signals it imports, the media
    query it installs in [firstUpdated], the template its [render]
    produces and the rules of its [static styles]; and of the token
    mixins of the navigation drawer's Sass partial. *)

From Stdlib Require Import ZArith Bool List String Lia.
From ExtLib Require Import Structures.Monad Structures.MonadState.
From ExtLib Require Import Data.Monads.StateMonad.
Import ListNotations.
Import MonadNotation.
Local Open Scope monad_scope.
Local Open Scope string_scope.
Local Open Scope Z_scope.

(** ** Shared signals

    [drawerOpenSignal], [inertContentSignal] and [inertSidebarSignal] are
    module-level cells imported from [../signals/]; the element reads a
    cell with [.value] and writes it with [.value = v].  The store keeps
    the three cells and, as ghost state, the list of writes performed so
    far (most recent first), so that "writes nothing" and "writes the
    same value again" can be told apart. *)

Inductive SignalName : Type :=
| drawerOpenSignal
| inertContentSignal
| inertSidebarSignal.

Record SignalStore : Type := mkStore {
  drawerOpen_cell : bool;
  inertContent_cell : bool;
  inertSidebar_cell : bool;
  writeLog : list (SignalName * bool)
}.

Definition cell (s : SignalName) (st : SignalStore) : bool :=
  match s with
  | drawerOpenSignal => drawerOpen_cell st
  | inertContentSignal => inertContent_cell st
  | inertSidebarSignal => inertSidebar_cell st
  end.

Definition store_cell (s : SignalName) (v : bool) (st : SignalStore)
  : SignalStore :=
  let log := (s, v) :: writeLog st in
  match s with
  | drawerOpenSignal =>
      mkStore v (inertContent_cell st) (inertSidebar_cell st) log
  | inertContentSignal =>
      mkStore (drawerOpen_cell st) v (inertSidebar_cell st) log
  | inertSidebarSignal =>
      mkStore (drawerOpen_cell st) (inertContent_cell st) v log
  end.

(** Code that touches the signals runs in the state monad over the
    store. *)
Definition Sig : Type -> Type := state SignalStore.

(** [s.value] *)
Definition value (s : SignalName) : Sig bool := gets (cell s).

(** [s.value = v] *)
Definition set_value (s : SignalName) (v : bool) : Sig unit :=
  st <- get ;; put (store_cell s v st).

(** ** Motion constants

    [EASING] is imported from [@material/web/internal/motion/animation.js];
    only its members' names are visible in this file, so an easing is
    either a named member of that table or a CSS literal such as
    ['linear']. *)

Module EASING.
Inductive member : Type :=
| EMPHASIZED
| EMPHASIZED_ACCELERATE.
End EASING.

Inductive Easing : Type :=
| Named (m : EASING.member)
| Literal (css : string).

(** [fadeIn] and [fadeOut] of [@lit-labs/motion]. *)
Inductive Keyframes : Type := fadeIn | fadeOut.

Record KeyframeOptions : Type := mkKeyframeOptions {
  duration : Z;
  easing : Easing
}.

(** The options object handed to the [animate] directive. *)
Record AnimateOptions : Type := mkAnimate {
  properties : list string;
  keyframeOptions : KeyframeOptions;
  animate_in : option Keyframes;
  animate_out : option Keyframes
}.

(** ** The rendered template

    One record per element of the [html] template that carries a dynamic
    binding; static structure (slots, class names without bindings) is
    left out. *)

Inductive Handler : Type := this_onScrimClick.

(** [<div class="scrim" @click=... ${animate(...)}>] *)
Record Scrim : Type := mkScrim {
  scrim_click : Handler;
  scrim_animate : AnimateOptions
}.

(** [<aside ?inert=... ${animate(...)}><slot ${animate(...)}></slot></aside>] *)
Record Aside : Type := mkAside {
  aside_inert : bool;
  aside_animate : AnimateOptions;
  slot_animate : AnimateOptions
}.

(** [<div class="spacer" ?inert=...>]: the scrim when present ([nothing]
    is [None]) and the aside. *)
Record Spacer : Type := mkSpacer {
  spacer_inert : bool;
  scrim : option Scrim;
  aside : Aside
}.

(** [<div class="content" ?inert=...>] inside [<div class="pane">] *)
Record Content : Type := mkContent {
  content_inert : bool
}.

(** [<div class="body  ${...}">]: the interpolated class, the spacer and
    the pane's content. *)
Record Body : Type := mkBody {
  body_class : string;
  spacer : Spacer;
  content : Content
}.

(** [<div class="root" data-animation-speed=...>] *)
Record Template : Type := mkRoot {
  data_animation_speed : string;
  body : Body
}.

(** ** The element *)

(** [@state() private isCollapsible = false], and Lit's [hasUpdated]
    flag, false until the first update has run [firstUpdated]. *)
Record NavDrawer : Type := mkNavDrawer {
  isCollapsible : bool;
  hasUpdated : bool
}.

(** The element as constructed. *)
Definition new_NavDrawer : NavDrawer :=
  {| isCollapsible := false; hasUpdated := false |}.

(** The constants computed at the top of [render] (lines 32-40). *)
Record RenderLocals : Type := mkLocals {
  showModal : bool;
  drawerSlideAnimationDuration : Z;
  drawerContentOpacityDuration : Z;
  scrimOpacityDuration : Z;
  drawerSlideAnimationEasing : Easing
}.

(** [a && b] where [b] reads a signal: JavaScript evaluates [b] only
    when [a] is true. *)
Definition and_then (a : bool) (b : Sig bool) : Sig bool :=
  if a then b else ret false.

(** [a || b], likewise short-circuit. *)
Definition or_else (a : bool) (b : Sig bool) : Sig bool :=
  if a then ret true else b.

(** [render], lines 32-40. *)
Definition render_locals (this : NavDrawer) : Sig RenderLocals :=
  showModal <- and_then (isCollapsible this) (value drawerOpenSignal) ;;
  (* Values taken from internal material motion spec *)
  let drawerSlideAnimationDuration := if showModal then 500 else 150 in
  let drawerContentOpacityDuration := if showModal then 300 else 150 in
  let scrimOpacityDuration := 150 in
  let drawerSlideAnimationEasing :=
    if showModal then Named EASING.EMPHASIZED
    else Named EASING.EMPHASIZED_ACCELERATE in
  ret (mkLocals showModal drawerSlideAnimationDuration
         drawerContentOpacityDuration scrimOpacityDuration
         drawerSlideAnimationEasing).

(** [render], lines 42-93: the template, its bindings evaluated in
    document order. *)
Definition render_template (this : NavDrawer) (l : RenderLocals)
  : Sig Template :=
  let speed := if showModal l then "long" else "short" in
  open <- value drawerOpenSignal ;;
  let class := if open then "open" else "" in
  spacerInert <- value inertSidebarSignal ;;
  let scrim :=
    if showModal l
    then Some (mkScrim this_onScrimClick
                 (mkAnimate ["opacity"]
                    (mkKeyframeOptions (scrimOpacityDuration l)
                       (Literal "linear"))
                    (Some fadeIn) (Some fadeOut)))
    else None in
  asideInert <-
    and_then (isCollapsible this)
      (open' <- value drawerOpenSignal ;; ret (negb open')) ;;
  let aside :=
    mkAside asideInert
      (mkAnimate ["transform"]
         (mkKeyframeOptions (drawerSlideAnimationDuration l)
            (drawerSlideAnimationEasing l))
         None None)
      (mkAnimate ["opacity"]
         (mkKeyframeOptions (drawerContentOpacityDuration l)
            (Literal "linear"))
         None None) in
  contentInert <- or_else (showModal l) (value inertContentSignal) ;;
  ret (mkRoot speed
         (mkBody class (mkSpacer spacerInert scrim aside)
            (mkContent contentInert))).

(** [render()] *)
Definition render (this : NavDrawer) : Sig Template :=
  l <- render_locals this ;;
  render_template this l.

(** [onScrimClick()]: closes the drawer on scrim click. *)
Definition onScrimClick (this : NavDrawer) : Sig unit :=
  set_value drawerOpenSignal false.

(** ** The viewport and its media query

    [window.matchMedia('(max-width: 1500px)')] yields a [MediaQueryList]
    whose [matches] is true exactly when the viewport is at most that
    wide, and which dispatches [change] when [matches] flips.  Widths
    are in CSS pixels. *)

Inductive MediaQuery : Type :=
| max_width (px : Z).

Definition matches (q : MediaQuery) (widthPx : Z) : bool :=
  match q with
  | max_width px => widthPx <=? px
  end.

(** The window: its current width and the queries on which the element
    has registered its [change] listener. *)
Record Window : Type := mkWindow {
  innerWidth : Z;
  changeListeners : list MediaQuery
}.

(** The listener [(e) => { this.isCollapsible = e.matches; }]. *)
Definition on_change (e_matches : bool) (this : NavDrawer) : NavDrawer :=
  {| isCollapsible := e_matches; hasUpdated := hasUpdated this |}.

(** [firstUpdated()] *)
Definition firstUpdated (this : NavDrawer) (window : Window)
  : NavDrawer * Window :=
  let queryResult := max_width 1500 in
  let this' :=
    {| isCollapsible := matches queryResult (innerWidth window);
       hasUpdated := hasUpdated this |} in
  (* Listen for page resizes to mark the drawer as collapsible. *)
  (this',
   {| innerWidth := innerWidth window;
      changeListeners := queryResult :: changeListeners window |}).

(** The two presentation modes; the element stores the mode as the
    boolean [isCollapsible]. *)
Inductive ViewportMode : Type := Collapsible | Inline.

Definition mode_of_bool (b : bool) : ViewportMode :=
  if b then Collapsible else Inline.

Definition mode (this : NavDrawer) : ViewportMode :=
  mode_of_bool (isCollapsible this).

(** What a [(max-width: thresholdPx px)] query makes of a width. *)
Definition classify (widthPx thresholdPx : Z) : ViewportMode :=
  mode_of_bool (matches (max_width thresholdPx) widthPx).

(** ** The running page *)

Record World : Type := mkWorld {
  this : NavDrawer;
  window : Window;
  signals : SignalStore
}.

Inductive Event : Type :=
| SetSignal (s : SignalName) (v : bool)  (* code elsewhere: [s.value = v] *)
| ClickScrim                             (* the scrim's [@click] listener runs *)
| Resize (widthPx : Z).                  (* the viewport gets a new width *)

(** A resize dispatches [change] to every listener whose query flips. *)
Fixpoint dispatch_change (old new : Z) (qs : list MediaQuery)
    (this : NavDrawer) : NavDrawer :=
  match qs with
  | [] => this
  | q :: qs' =>
      let this' :=
        if Bool.eqb (matches q old) (matches q new) then this
        else on_change (matches q new) this in
      dispatch_change old new qs' this'
  end.

Definition handle (e : Event) (w : World) : World :=
  match e with
  | SetSignal s v =>
      mkWorld (this w) (window w) (execState (set_value s v) (signals w))
  | ClickScrim =>
      mkWorld (this w) (window w)
        (execState (onScrimClick (this w)) (signals w))
  | Resize widthPx =>
      let win := window w in
      mkWorld
        (dispatch_change (innerWidth win) widthPx (changeListeners win)
           (this w))
        (mkWindow widthPx (changeListeners win))
        (signals w)
  end.

(** A frame: the world a render ran in and the template it returned. *)
Definition Frame : Type := (World * Template)%type.

(** One Lit update: [render()], and after the first one [firstUpdated()]. *)
Definition update (w : World) : Frame * World :=
  let (t, st) := runState (render (this w)) (signals w) in
  if hasUpdated (this w)
  then ((w, t), mkWorld (this w) (window w) st)
  else
    let (this', window') :=
      firstUpdated (mkNavDrawer (isCollapsible (this w)) true) (window w) in
    ((w, t), mkWorld this' window' st).

(** Updates until nothing is pending: the first update is followed by a
    second one when [firstUpdated] changed [isCollapsible]. *)
Definition updates (w : World) : list Frame * World :=
  let (f1, w1) := update w in
  if Bool.eqb (isCollapsible (this w1)) (isCollapsible (this w))
  then ([f1], w1)
  else let (f2, w2) := update w1 in ([f1; f2], w2).

(** The element connected to a page, before any update. *)
Definition mount (widthPx : Z) (st : SignalStore) : World :=
  mkWorld new_NavDrawer (mkWindow widthPx []) st.

(** The frames rendered while the events arrive, and the final world.
    A render follows every event; Lit skips those in which nothing the
    template reads has changed, which only removes frames. *)
Fixpoint run_from (es : list Event) (w : World) : list Frame * World :=
  match es with
  | [] => ([], w)
  | e :: es' =>
      let (fs, w1) := updates (handle e w) in
      let (fs', w2) := run_from es' w1 in
      ((fs ++ fs')%list, w2)
  end.

Definition run (widthPx : Z) (st : SignalStore) (es : list Event)
  : list Frame * World :=
  let (fs, w1) := updates (mount widthPx st) in
  let (fs', w2) := run_from es w1 in
  ((fs ++ fs')%list, w2).

(** ** What the spec calls the derived drawer configuration, read off
    the template *)

Definition showScrim (t : Template) : bool :=
  match scrim (spacer (body t)) with Some _ => true | None => false end.

Definition slideDurationMs (t : Template) : Z :=
  duration (keyframeOptions (aside_animate (aside (spacer (body t))))).

Definition contentOpacityDurationMs (t : Template) : Z :=
  duration (keyframeOptions (slot_animate (aside (spacer (body t))))).

Definition easingCurve (t : Template) : Easing :=
  easing (keyframeOptions (aside_animate (aside (spacer (body t))))).

Definition scrimOpacityDurationMs (t : Template) : option Z :=
  option_map (fun s => duration (keyframeOptions (scrim_animate s)))
    (scrim (spacer (body t))).

Definition sidebarInert (t : Template) : bool :=
  aside_inert (aside (spacer (body t))).

Definition contentInert (t : Template) : bool :=
  content_inert (content (body t)).

Definition is_Collapsible (m : ViewportMode) : bool :=
  match m with Collapsible => true | Inline => false end.

(** ** Notions used in the statements *)

(** A frame is derived when its template is what [render] returns in
    its world. *)
Definition derived (f : Frame) : Prop :=
  snd f = evalState (render (this (fst f))) (signals (fst f)).

(** The measurement invariant: until [firstUpdated] has run the element
    has no listener and keeps its default; afterwards it has exactly the
    listener on the 1500px query and [isCollapsible] tracks that query. *)
Definition measured_ok (w : World) : Prop :=
  if hasUpdated (this w)
  then changeListeners (window w) = [max_width 1500]
       /\ isCollapsible (this w)
          = matches (max_width 1500) (innerWidth (window w))
  else changeListeners (window w) = []
       /\ isCollapsible (this w) = false.

(** Events handled with no render in between. *)
Definition handle_all (es : list Event) (w : World) : World :=
  fold_left (fun w e => handle e w) es w.

(** The mode and open value of a world. *)
Definition state_of (w : World) : ViewportMode * bool :=
  (mode (this w), cell drawerOpenSignal (signals w)).

(** The template rendered once the events [es] have taken the page from
    [prev] to its next state. *)
Definition derive_after (prev : World) (es : list Event) : Template :=
  let next := handle_all es prev in
  evalState (render (this next)) (signals next).

(** The three parameters of the drawer's own animations. *)
Definition timing (t : Template) : Z * Z * Easing :=
  (slideDurationMs t, contentOpacityDurationMs t, easingCurve t).

(** The same three, as computed at the top of [render]. *)
Definition timing_of_locals (l : RenderLocals) : Z * Z * Easing :=
  (drawerSlideAnimationDuration l, drawerContentOpacityDuration l,
   drawerSlideAnimationEasing l).

(** The two timing profiles, by the state being rendered. *)
Definition profile (s : ViewportMode * bool) : Z * Z * Easing :=
  if is_Collapsible (fst s) && snd s
  then (500, 300, Named EASING.EMPHASIZED)
  else (150, 150, Named EASING.EMPHASIZED_ACCELERATE).

(** The timing read as depending on the previous state: two transitions
    into the same (mode, open) state, from different previous states,
    whose renders differ in timing. *)
Definition timing_depends_on_previous : Prop :=
  exists (prev1 : World) (es1 : list Event)
         (prev2 : World) (es2 : list Event),
    state_of (handle_all es1 prev1) = state_of (handle_all es2 prev2)
    /\ state_of prev1 <> state_of prev2
    /\ timing (derive_after prev1 es1) <> timing (derive_after prev2 es2).

(** Publication of the inert values, under either write policy: once
    [render] has run, the two inert signals hold the values computed for
    the aside and for the content. *)
Definition publishes_inert (c : NavDrawer) (st : SignalStore) : Prop :=
  let (t, st') := runState (render c) st in
  cell inertSidebarSignal st' = sidebarInert t
  /\ cell inertContentSignal st' = contentInert t.

(** The scrim click read as a no-op outside the modal state: whenever
    the scrim is not shown, the [false] it writes is what the open
    signal already holds, so no cell changes, and the scrim stays not
    shown. *)
Definition click_is_noop_unless_modal (c : NavDrawer) (st : SignalStore)
  : Prop :=
  showScrim (evalState (render c) st) = false ->
  cell drawerOpenSignal st = false
  /\ (forall s, cell s (execState (onScrimClick c) st) = cell s st)
  /\ showScrim (evalState (render c) (execState (onScrimClick c) st))
     = false.

(** ** The stylesheet

    [static styles]: the rules of the [css] template in source order,
    each with the media conditions it is nested in, its selector list
    and its declarations.  Values are kept as written, except times
    (in milliseconds: [0.5s] is 500), [z-index] integers and the
    [transition] shorthand, which are read by the properties below. *)

Inductive MediaCondition : Type :=
| media_width (q : MediaQuery)   (* [(max-width: Npx)] *)
| pointer_fine                   (* [(pointer: fine)] *)
| forced_colors_active.          (* [(forced-colors: active)] *)

(** What the media conditions are evaluated against. *)
Record Device : Type := mkDevice {
  device_width : Z;
  device_pointer_fine : bool;
  device_forced_colors : bool
}.

Definition media_holds (d : Device) (m : MediaCondition) : bool :=
  match m with
  | media_width q => matches q (device_width d)
  | pointer_fine => device_pointer_fine d
  | forced_colors_active => device_forced_colors d
  end.

(** The simple selectors the sheet uses; every compound selector in it
    is a single one of them. *)
Inductive Simple : Type :=
| sel_tag (name : string)            (* [aside] *)
| sel_class (name : string)          (* [.pane] *)
| sel_attr (name val : string)       (* [[data-animation-speed='short']] *)
| sel_host                           (* [:host] *)
| sel_slotted.                       (* [::slotted( * )] *)

(** A complex selector: compounds joined by the descendant combinator,
    outermost first, and the pseudo-element it ends in, if any. *)
Record Selector : Type := mkSelector {
  compounds : list Simple;
  pseudo_element : option string
}.

Inductive CssValue : Type :=
| css (text : string)
| css_time (ms : Z)
| css_integer (n : Z)
| css_transition (property : option string) (ms : Z) (timing : string).

Record Rule : Type := mkRule {
  media : list MediaCondition;
  selectors : list Selector;
  declarations : list (string * CssValue)
}.

Definition sel (cs : list Simple) : Selector := mkSelector cs None.

Definition narrow : MediaCondition := media_width (max_width 1500).

Definition styles : list Rule :=
  [ mkRule [] [sel [sel_host]]
      [ ("--_max-width", css "1760px");
        ("--_drawer-width", css "var(--catalog-drawer-width, 300px)");
        ("--_pane-margin-inline-start", css "0");
        ("--_pane-margin-inline-end", css "var(--catalog-spacing-xl)");
        ("--_pane-margin-block-end", css "var(--catalog-spacing-xl)");
        ("min-height", css "100dvh");
        ("display", css "flex");
        ("flex-direction", css "column") ];
    mkRule [] [sel [sel_slotted]]
      [ ("--md-list-item-list-item-container-shape",
         css "var(--catalog-shape-xl)");
        ("--md-focus-ring-shape", css "var(--catalog-shape-xl)") ];
    mkRule [] [sel [sel_class "body"]]
      [ ("display", css "flex"); ("flex-grow", css "1") ];
    mkRule [] [sel [sel_class "spacer"]]
      [ ("position", css "relative");
        ("transition",
         css_transition (Some "min-width") 500
           "cubic-bezier(0.3, 0, 0, 1)") ];
    mkRule [] [sel [sel_class "spacer"]; sel [sel_tag "aside"]]
      [ ("min-width", css "var(--_drawer-width)");
        ("max-width", css "var(--_drawer-width)") ];
    mkRule [] [sel [sel_class "pane"]]
      [ ("box-sizing", css "border-box");
        ("overflow", css "auto");
        ("width", css "100%");
        ("height",
         css "calc(100dvh - var(--catalog-top-app-bar-height) - var(--_pane-margin-block-end))");
        ("background-color", css "var(--md-sys-color-surface)");
        ("border-radius", css "var(--catalog-shape-xl)");
        ("padding-block", css "var(--catalog-spacing-xl)");
        ("margin-inline",
         css "var(--_pane-margin-inline-start) var(--_pane-margin-inline-end)");
        (* emphasized - duration matching render fn for sidebar *)
        ("transition",
         css_transition None 500 "cubic-bezier(0.3, 0, 0, 1)");
        ("transition-property", css "margin, height, border-radius") ];
    mkRule []
      [sel [sel_attr "data-animation-speed" "short"; sel_class "pane"]]
      [ (* duration matching render function for sidebar *)
        ("transition-duration", css_time 150);
        (* emphasize-accelerate *)
        ("transition-timing-function",
         css "cubic-bezier(0.3, 0, 0.8, 0.15)") ];
    mkRule [] [sel [sel_class "content"]]
      [ ("flex-grow", css "1");
        ("display", css "flex");
        ("justify-content", css "center");
        ("box-sizing", css "border-box");
        ("padding-inline", css "var(--catalog-spacing-xl)");
        ("max-width", css "calc(100vw - var(--_drawer-width))") ];
    mkRule [] [sel [sel_class "content"; sel_tag "slot"]]
      [ ("display", css "block");
        ("width", css "100%");
        ("max-width", css "min(100%, var(--_max-width))") ];
    mkRule [] [sel [sel_tag "aside"]]
      [ ("transition",
         css_transition (Some "transform") 500
           "cubic-bezier(0.3, 0, 0, 1)");
        ("position", css "fixed");
        ("isolation", css "isolate");
        ("inset", css "var(--catalog-top-app-bar-height) 0 0 0");
        ("z-index", css_integer 12);
        ("background-color",
         css "var(--md-sys-color-surface-container)") ];
    mkRule [] [sel [sel_tag "aside"; sel_tag "slot"]]
      [ ("display", css "block") ];
    mkRule [] [sel [sel_class "scrim"]]
      [ ("background-color",
         css "var(--md-dialog-scrim-color, rgba(0, 0, 0, 0.32))") ];
    (* @media (max-width: 1500px) *)
    mkRule [narrow] [sel [sel_class "spacer"]]
      [ ("min-width", css "0px") ];
    mkRule [narrow] [sel [sel_class "content"]]
      [ ("max-width", css "100vw");
        ("padding-inline", css "var(--catalog-spacing-xl)") ];
    mkRule [narrow] [sel [sel_class "scrim"]]
      [ ("position", css "fixed"); ("inset", css "0") ];
    mkRule [narrow] [sel [sel_tag "aside"]]
      [ ("transition", css "unset");
        ("transform", css "translateX(-100%)");
        ("border-radius",
         css "0 var(--catalog-shape-xl) var(--catalog-shape-xl) 0") ];
    mkRule [narrow] [sel [sel_class "pane"]]
      [ ("--_pane-margin-inline-start", css "var(--catalog-spacing-xl)") ];
    mkRule [narrow] [sel [sel_class "open"; sel_tag "aside"]]
      [ ("transform", css "translateX(0)") ];
    mkRule [narrow] [sel [sel_tag "aside"; sel_tag "slot"]]
      [ ("opacity", css "0") ];
    mkRule [narrow] [sel [sel_class "open"; sel_tag "aside"; sel_tag "slot"]]
      [ ("opacity", css "1") ];
    mkRule [narrow] [sel [sel_class "open"; sel_class "scrim"]]
      [ ("inset", css "0"); ("z-index", css_integer 11) ];
    (* @media (max-width: 600px) *)
    mkRule [media_width (max_width 600)] [sel [sel_class "pane"]]
      [ ("border-end-start-radius", css "0");
        ("border-end-end-radius", css "0");
        ("--_pane-margin-inline-start", css "0");
        ("--_pane-margin-inline-end", css "0");
        ("--_pane-margin-block-end", css "0") ];
    (* @media (pointer: fine) *)
    mkRule [pointer_fine] [sel [sel_host]]
      [ ("--_scrollbar-width", css "8px") ];
    mkRule [pointer_fine] [sel [sel_class "pane"]]
      [ ("scrollbar-color", css "var(--md-sys-color-primary) transparent");
        ("scrollbar-width", css "thin") ];
    mkRule [pointer_fine] [sel [sel_class "content"]]
      [ ("padding-inline-end",
         css "calc(var(--catalog-spacing-xl) - var(--_scrollbar-width))") ];
    mkRule [pointer_fine]
      [mkSelector [sel_class "pane"] (Some "-webkit-scrollbar")]
      [ ("background-color", css "transparent");
        ("width", css "var(--_scrollbar-width)") ];
    mkRule [pointer_fine]
      [mkSelector [sel_class "pane"] (Some "-webkit-scrollbar-thumb")]
      [ ("background-color", css "var(--md-sys-color-primary)");
        ("border-radius", css "calc(var(--_scrollbar-width) / 2)") ];
    (* @media (forced-colors: active), with its nested blocks *)
    mkRule [forced_colors_active] [sel [sel_class "pane"]]
      [ ("border", css "1px solid CanvasText") ];
    mkRule [forced_colors_active; narrow] [sel [sel_tag "aside"]]
      [ ("box-sizing", css "border-box");
        ("border", css "1px solid CanvasText") ];
    mkRule [forced_colors_active; narrow] [sel [sel_class "scrim"]]
      [ ("background-color",
         css "var(--md-dialog-scrim-color, rgba(0, 0, 0, 0.75))") ];
    mkRule [forced_colors_active; pointer_fine] [sel [sel_class "pane"]]
      [ ("scrollbar-color", css "CanvasText transparent") ];
    mkRule [forced_colors_active; pointer_fine]
      [mkSelector [sel_class "pane"] (Some "-webkit-scrollbar-thumb")]
      [ ("background-color", css "CanvasText") ] ].

(** ** The shadow tree the template describes

    The elements of the [html] template (lines 43-92), each with its
    tag, classes and attributes. *)

Record Element : Type := mkElement {
  tag : string;
  classes : list string;
  attributes : list (string * string)
}.

(** A boolean attribute binding [?inert=${b}]. *)
Definition inert_attr (b : bool) : list (string * string) :=
  if b then [("inert", "")] else [].

Inductive Node : Type :=
| node_root | node_top_app_bar_slot | node_body | node_spacer | node_scrim
| node_aside | node_aside_slot | node_pane | node_content
| node_content_slot.

Definition root_element (t : Template) : Element :=
  mkElement "div" ["root"]
    [("data-animation-speed", data_animation_speed t)].

(** [class="body  ${...}"]: the class [body] and the interpolated one
    when it is not empty. *)
Definition body_element (t : Template) : Element :=
  mkElement "div"
    ("body" :: if String.eqb (body_class (body t)) "" then []
               else [body_class (body t)])
    [].

Definition spacer_element (t : Template) : Element :=
  mkElement "div" ["spacer"] (inert_attr (spacer_inert (spacer (body t)))).

Definition aside_element (t : Template) : Element :=
  mkElement "aside" [] (inert_attr (sidebarInert t)).

Definition content_element (t : Template) : Element :=
  mkElement "div" ["content"] (inert_attr (contentInert t)).

(** The path from the root of the shadow tree down to a node, the node
    last; [None] for the scrim of a template that has none. *)
Definition path_of (t : Template) (n : Node) : option (list Element) :=
  let root := root_element t in
  let body := body_element t in
  let spacer := spacer_element t in
  let aside := aside_element t in
  let pane := mkElement "div" ["pane"] [] in
  match n with
  | node_root => Some [root]
  | node_top_app_bar_slot =>
      Some [root; mkElement "slot" [] [("name", "top-app-bar")]]
  | node_body => Some [root; body]
  | node_spacer => Some [root; body; spacer]
  | node_scrim =>
      if showScrim t
      then Some [root; body; spacer; mkElement "div" ["scrim"] []]
      else None
  | node_aside => Some [root; body; spacer; aside]
  | node_aside_slot =>
      Some [root; body; spacer; aside; mkElement "slot" [] []]
  | node_pane => Some [root; body; pane]
  | node_content => Some [root; body; pane; content_element t]
  | node_content_slot =>
      Some [root; body; pane; content_element t;
            mkElement "slot" [] [("name", "app-content")]]
  end.

(** ** Selector matching and the cascade *)

Definition simple_matches (s : Simple) (e : Element) : bool :=
  match s with
  | sel_tag name => String.eqb name (tag e)
  | sel_class name => existsb (String.eqb name) (classes e)
  | sel_attr name val =>
      existsb (fun kv => String.eqb name (fst kv) && String.eqb val (snd kv))
        (attributes e)
  | sel_host | sel_slotted => false   (* not elements of the shadow tree *)
  end.

(** The remaining compounds, innermost first, against the ancestors,
    nearest first: each compound needs an ancestor further out than the
    one before. *)
Fixpoint ancestors_match (cs : list Simple) (ancestors : list Element)
  : bool :=
  match cs, ancestors with
  | [], _ => true
  | _ :: _, [] => false
  | c :: cs', a :: ancestors' =>
      if simple_matches c a then ancestors_match cs' ancestors'
      else ancestors_match cs ancestors'
  end.

Definition selector_matches (s : Selector) (path : list Element) : bool :=
  match pseudo_element s with
  | Some _ => false
  | None =>
      match rev (compounds s), rev path with
      | c :: cs, e :: ancestors =>
          simple_matches c e && ancestors_match cs ancestors
      | _, _ => false
      end
  end.

(** Specificity: classes, attributes and pseudo-classes, then tags. *)
Definition specificity (s : Selector) : nat * nat :=
  fold_right
    (fun c '(b, k) =>
       match c with
       | sel_tag _ | sel_slotted => (b, S k)
       | sel_class _ | sel_attr _ _ | sel_host => (S b, k)
       end)
    (0%nat, 0%nat) (compounds s).

Definition specificity_le (x y : nat * nat) : bool :=
  Nat.ltb (fst x) (fst y)
  || (Nat.eqb (fst x) (fst y) && Nat.leb (snd x) (snd y)).

(** What a declaration says about a longhand property: its own value,
    or the part of a [transition] shorthand that sets it. *)
Definition declares (longhand : string) (d : string * CssValue)
  : option CssValue :=
  if String.eqb (fst d) longhand then Some (snd d)
  else if String.eqb (fst d) "transition" then
    match snd d with
    | css_transition property ms timing =>
        if String.eqb longhand "transition-duration"
        then Some (css_time ms)
        else if String.eqb longhand "transition-timing-function"
        then Some (css timing)
        else if String.eqb longhand "transition-property"
        then Some (css match property with Some p => p | None => "all" end)
        else if String.eqb longhand "transition-delay"
        then Some (css_time 0)
        else None
    | v =>
        if String.eqb longhand "transition-duration"
           || String.eqb longhand "transition-timing-function"
           || String.eqb longhand "transition-property"
           || String.eqb longhand "transition-delay"
        then Some v
        else None
    end
  else None.

(** The declarations of a longhand that apply to an element, in source
    order, each with the specificity of the selector that brought it:
    the highest specificity among the rule's selectors that match. *)
Definition rule_specificity (r : Rule) (path : list Element)
  : option (nat * nat) :=
  fold_left
    (fun best s =>
       if selector_matches s path then
         match best with
         | Some b =>
             if specificity_le b (specificity s)
             then Some (specificity s) else best
         | None => Some (specificity s)
         end
       else best)
    (selectors r) None.

Definition candidates (sheet : list Rule) (d : Device)
    (path : list Element) (longhand : string)
  : list (nat * nat * CssValue) :=
  flat_map
    (fun r =>
       if forallb (media_holds d) (media r) then
         match rule_specificity r path with
         | Some sp =>
             flat_map
               (fun decl =>
                  match declares longhand decl with
                  | Some v => [(sp, v)]
                  | None => []
                  end)
               (declarations r)
         | None => []
         end
       else [])
    sheet.

(** The cascade: the highest specificity wins, the later declaration
    among equals; [None] when nothing is declared. *)
Definition cascade (cands : list (nat * nat * CssValue))
  : option CssValue :=
  option_map snd
    (fold_left
       (fun best c =>
          match best with
          | Some b => if specificity_le (fst b) (fst c) then Some c else best
          | None => Some c
          end)
       cands None).

(** The declared value that wins for a longhand on a node. *)
Definition computed (d : Device) (t : Template) (n : Node)
    (longhand : string) : option CssValue :=
  match path_of t n with
  | Some path => cascade (candidates styles d path longhand)
  | None => None
  end.

(** ** The navigation drawer's Sass partial

    The [theme] mixin and the token loop of the [styles] mixin, with the
    [$_reference] map.  A Sass map is a list of pairs with distinct
    keys, in insertion order. *)

Module Scss.

(** A Sass value, as far as the mixins look at it: [null], a boolean,
    or anything else (numbers, colors, lists, strings) by its CSS text. *)
Inductive SassValue : Type :=
| sass_null
| sass_bool (b : bool)
| sass_text (text : string).

(** [@if $value]: only [null] and [false] are falsey. *)
Definition truthy (v : SassValue) : bool :=
  match v with
  | sass_null | sass_bool false => false
  | sass_bool true | sass_text _ => true
  end.

(** Interpolation [#{$value}]. *)
Definition interpolate (v : SassValue) : string :=
  match v with
  | sass_null => ""
  | sass_bool true => "true"
  | sass_bool false => "false"
  | sass_text text => text
  end.

Definition SassMap : Type := list (string * SassValue).

(** [map.get($map, $key)] *)
Fixpoint map_get (m : SassMap) (key : string) : option SassValue :=
  match m with
  | [] => None
  | (k, v) :: m' => if String.eqb k key then Some v else map_get m' key
  end.

(** [$_reference] *)
Definition _reference : SassMap :=
  [ ("container-color", sass_text "#fff");
    ("container-height", sass_text "100%");
    ("container-shape", sass_text "0 16px 16px 0");
    ("container-width", sass_text "360px");
    (* Temporary existing token to use for shadow color *)
    ("divider-color", sass_text "#000");
    ("modal-container-elevation", sass_text "1");
    ("standard-container-elevation", sass_text "0") ].

(** The value of an emitted declaration: plain text, or a [var()]
    reference with its fallback. *)
Inductive CssExpr : Type :=
| plain (text : string)
| var (name : string) (fallback : string).

(** [@mixin theme($tokens)]: one custom property per token whose value
    is truthy. *)
Definition theme (tokens : SassMap) : list (string * CssExpr) :=
  flat_map
    (fun tv : string * SassValue =>
       let (token, value) := tv in
       if truthy value
       then [("--md-navigation-drawer-" ++ token, plain (interpolate value))]
       else [])
    tokens.

(** [@mixin styles()], the [@each] loop of its first [:host] rule. *)
Definition styles_tokens (tokens : SassMap) : list (string * CssExpr) :=
  map
    (fun tv : string * SassValue =>
       let (token, value) := tv in
       ("--_" ++ token,
        var ("--md-navigation-drawer-" ++ token) (interpolate value)))
    tokens.

(** The declaration that holds for a property in a block: the last one
    that names it. *)
Definition declared (block : list (string * CssExpr)) (name : string)
  : option CssExpr :=
  fold_left
    (fun found d => if String.eqb (fst d) name then Some (snd d) else found)
    block None.

End Scss.

(** * Properties *)

(** ** [render] *)

(** Case analysis on the element and the store is enough to evaluate a
    render. *)
Ltac by_cases_on c st :=
  destruct c as [[|] ?]; destruct st as [[|] [|] [|] ?]; reflexivity.

Lemma is_Collapsible_mode (c : NavDrawer) :
  is_Collapsible (mode c) = isCollapsible c.
Proof. unfold mode. destruct (isCollapsible c); reflexivity. Qed.

(** [render] only reads the store. *)
Lemma render_reads_only (c : NavDrawer) (st : SignalStore) :
  execState (render c) st = st.
Proof. by_cases_on c st. Qed.

Lemma runState_render (c : NavDrawer) (st : SignalStore) :
  runState (render c) st = (evalState (render c) st, st).
Proof. by_cases_on c st. Qed.

Lemma render_locals_reads_only (c : NavDrawer) (st : SignalStore) :
  execState (render_locals c) st = st.
Proof. by_cases_on c st. Qed.

Lemma showModal_spec (c : NavDrawer) (st : SignalStore) :
  showModal (evalState (render_locals c) st)
  = isCollapsible c && cell drawerOpenSignal st.
Proof. by_cases_on c st. Qed.

Lemma showScrim_spec (c : NavDrawer) (st : SignalStore) :
  showScrim (evalState (render c) st)
  = isCollapsible c && cell drawerOpenSignal st.
Proof. by_cases_on c st. Qed.

Lemma sidebarInert_spec (c : NavDrawer) (st : SignalStore) :
  sidebarInert (evalState (render c) st)
  = isCollapsible c && negb (cell drawerOpenSignal st).
Proof. by_cases_on c st. Qed.

Lemma contentInert_spec (c : NavDrawer) (st : SignalStore) :
  contentInert (evalState (render c) st)
  = showScrim (evalState (render c) st) || cell inertContentSignal st.
Proof. by_cases_on c st. Qed.

(** ** Frames of a run *)

Lemma update_derived (w : World) : derived (fst (update w)).
Proof.
  unfold update, derived. rewrite runState_render.
  destruct (hasUpdated (this w)); [reflexivity|].
  destruct (firstUpdated _ _); reflexivity.
Qed.

Lemma updates_derived (w : World) : Forall derived (fst (updates w)).
Proof.
  unfold updates.
  pose proof (update_derived w) as H1.
  destruct (update w) as [f1 w1]. cbn [fst snd] in *.
  destruct (Bool.eqb _ _).
  - cbn. repeat constructor. exact H1.
  - pose proof (update_derived w1) as H2.
    destruct (update w1) as [f2 w2]. cbn in *.
    repeat constructor; assumption.
Qed.

Lemma run_from_derived (es : list Event) :
  forall w, Forall derived (fst (run_from es w)).
Proof.
  induction es as [|e es IH]; intros w; cbn [run_from].
  - constructor.
  - pose proof (updates_derived (handle e w)) as H.
    destruct (updates (handle e w)) as [fs w1].
    specialize (IH w1). destruct (run_from es w1) as [fs' w2].
    cbn [fst] in *. apply Forall_app. split; assumption.
Qed.

Lemma run_derived (widthPx : Z) (st : SignalStore) (es : list Event) :
  Forall derived (fst (run widthPx st es)).
Proof.
  unfold run.
  pose proof (updates_derived (mount widthPx st)) as H.
  destruct (updates (mount widthPx st)) as [fs w1].
  pose proof (run_from_derived es w1) as H'.
  destruct (run_from es w1) as [fs' w2].
  cbn [fst] in *. apply Forall_app. split; assumption.
Qed.

(** ** The measurement invariant along a run *)

Lemma mount_ok (widthPx : Z) (st : SignalStore) :
  measured_ok (mount widthPx st).
Proof. split; reflexivity. Qed.

Lemma handle_ok (e : Event) (w : World) :
  measured_ok w -> measured_ok (handle e w).
Proof.
  destruct w as [[ic hu] [width ls] st]. unfold measured_ok. cbn.
  destruct e as [s v| |width']; cbn; try exact (fun H => H).
  destruct hu; intros [-> ->]; cbn.
  - destruct (Bool.eqb (width <=? 1500) (width' <=? 1500)) eqn:E; cbn.
    + apply Bool.eqb_prop in E. split; [reflexivity | exact E].
    + split; reflexivity.
  - split; reflexivity.
Qed.

Lemma handle_hasUpdated (e : Event) (w : World) :
  hasUpdated (this (handle e w)) = hasUpdated (this w).
Proof.
  destruct e as [s v| |width']; cbn; try reflexivity.
  generalize (this w).
  induction (changeListeners (window w)) as [|q qs IH]; intros c; cbn.
  - reflexivity.
  - rewrite IH. destruct (Bool.eqb _ _); reflexivity.
Qed.

Lemma update_ok (w : World) :
  measured_ok w ->
  measured_ok (snd (update w)) /\ hasUpdated (this (snd (update w))) = true.
Proof.
  unfold measured_ok, update. rewrite runState_render.
  destruct w as [[ic hu] [width ls] st].
  destruct hu; cbn -[render evalState].
  - intros H. split; [exact H | reflexivity].
  - intros [-> ->]. split; [split|]; reflexivity.
Qed.

Lemma updates_ok (w : World) :
  measured_ok w ->
  measured_ok (snd (updates w)) /\ hasUpdated (this (snd (updates w))) = true.
Proof.
  intros H. unfold updates.
  pose proof (update_ok w H) as [H1 U1].
  destruct (update w) as [f1 w1]. cbn [snd] in *.
  destruct (Bool.eqb _ _).
  - cbn. split; assumption.
  - pose proof (update_ok w1 H1) as [H2 U2].
    destruct (update w1) as [f2 w2]. cbn in *. split; assumption.
Qed.

Lemma run_from_ok (es : list Event) :
  forall w, measured_ok w -> hasUpdated (this w) = true ->
  measured_ok (snd (run_from es w))
  /\ hasUpdated (this (snd (run_from es w))) = true.
Proof.
  induction es as [|e es IH]; intros w H U; cbn [run_from].
  - split; assumption.
  - pose proof (updates_ok (handle e w) (handle_ok e w H)) as [H1 U1].
    destruct (updates (handle e w)) as [fs w1]. cbn [snd] in *.
    specialize (IH w1 H1 U1). destruct (run_from es w1) as [fs' w2].
    exact IH.
Qed.

Lemma run_ok (widthPx : Z) (st : SignalStore) (es : list Event) :
  measured_ok (snd (run widthPx st es))
  /\ hasUpdated (this (snd (run widthPx st es))) = true.
Proof.
  unfold run.
  pose proof (updates_ok _ (mount_ok widthPx st)) as [H1 U1].
  destruct (updates (mount widthPx st)) as [fs w1]. cbn [snd] in *.
  pose proof (run_from_ok es w1 H1 U1) as H2.
  destruct (run_from es w1) as [fs' w2]. exact H2.
Qed.

Lemma updates_length (w : World) : (1 <= List.length (fst (updates w)))%nat.
Proof.
  unfold updates. destruct (update w) as [f1 w1].
  destruct (Bool.eqb _ _); [cbn; lia|].
  destruct (update w1); cbn; lia.
Qed.

Lemma run_from_length (es : list Event) :
  forall w, (List.length es <= List.length (fst (run_from es w)))%nat.
Proof.
  induction es as [|e es IH]; intros w; cbn [run_from List.length].
  - lia.
  - pose proof (updates_length (handle e w)) as H.
    destruct (updates (handle e w)) as [fs w1].
    specialize (IH w1). destruct (run_from es w1) as [fs' w2].
    cbn [fst] in *. rewrite length_app. lia.
Qed.

(** A run renders once on mounting and at least once per event. *)
Lemma run_length (widthPx : Z) (st : SignalStore) (es : list Event) :
  (List.length es < List.length (fst (run widthPx st es)))%nat.
Proof.
  unfold run.
  pose proof (updates_length (mount widthPx st)) as H.
  destruct (updates (mount widthPx st)) as [fs w1].
  pose proof (run_from_length es w1) as H'.
  destruct (run_from es w1) as [fs' w2].
  cbn [fst] in *. rewrite length_app. lia.
Qed.

(** ** The scrim *)

(** C1: for both modes and both values of the open signal, the rendered
    template contains the scrim exactly when the mode is Collapsible and
    the open signal is true; and in every run (any starting width and
    store, any sequence of signal writes, scrim clicks and resizes) this
    holds of every frame, of which there is at least one per event. *)
Theorem showScrim_iff_collapsible_and_open :
  (forall (c : NavDrawer) (st : SignalStore),
      showScrim (evalState (render c) st)
      = is_Collapsible (mode c) && cell drawerOpenSignal st)
  /\ (forall (m : ViewportMode) (open hu ic isb : bool) log,
      showScrim
        (evalState (render (mkNavDrawer (is_Collapsible m) hu))
           (mkStore open ic isb log))
      = match m with Collapsible => open | Inline => false end)
  /\ (forall (widthPx : Z) (st : SignalStore) (es : list Event),
      Forall
        (fun f : Frame =>
           showScrim (snd f)
           = is_Collapsible (mode (this (fst f)))
             && cell drawerOpenSignal (signals (fst f)))
        (fst (run widthPx st es))
      /\ (List.length es < List.length (fst (run widthPx st es)))%nat).
Proof.
  split; [|split].
  - intros c st. rewrite is_Collapsible_mode. apply showScrim_spec.
  - intros [|] [|] hu ic isb log; reflexivity.
  - intros widthPx st es. split; [|apply run_length].
    eapply Forall_impl; [|apply run_derived].
    intros [w t] D. unfold derived in D. cbn [fst snd] in *. subst t.
    rewrite is_Collapsible_mode. apply showScrim_spec.
Qed.

(** ** Timing *)

(** C2: a render yields one of exactly two timing profiles.  When the
    state being rendered is modal (Collapsible and open) the slide lasts
    500ms, the content opacity 300ms and the easing is EMPHASIZED;
    otherwise they are 150ms, 150ms and EMPHASIZED_ACCELERATE.  The
    template carries the values computed at the top of [render].  The
    scrim's fade duration is the constant 150ms, which is what the scrim
    carries whenever it is rendered. *)
Theorem two_timing_profiles (c : NavDrawer) (st : SignalStore) :
  let t := evalState (render c) st in
  let l := evalState (render_locals c) st in
  timing t
  = (if is_Collapsible (mode c) && cell drawerOpenSignal st
     then (500, 300, Named EASING.EMPHASIZED)
     else (150, 150, Named EASING.EMPHASIZED_ACCELERATE))
  /\ timing_of_locals l = timing t
  /\ scrimOpacityDuration l = 150
  /\ scrimOpacityDurationMs t = (if showScrim t then Some 150 else None)
  /\ data_animation_speed t
     = (if is_Collapsible (mode c) && cell drawerOpenSignal st
        then "long" else "short").
Proof.
  destruct c as [[|] ?]; destruct st as [[|] [|] [|] ?];
    repeat split; reflexivity.
Qed.

(** ** Inertness *)

(** C3: for every element state and every store, the aside's inert
    attribute is [isCollapsible && !drawerOpenSignal.value] and the
    content's inert attribute is [showModal || inertContentSignal.value],
    where [showModal] is also what decides the scrim. *)
Theorem inert_flags (c : NavDrawer) (st : SignalStore) :
  let t := evalState (render c) st in
  sidebarInert t
  = is_Collapsible (mode c) && negb (cell drawerOpenSignal st)
  /\ contentInert t = showScrim t || cell inertContentSignal st
  /\ showScrim t = showModal (evalState (render_locals c) st).
Proof.
  cbn zeta. rewrite is_Collapsible_mode.
  split; [apply sidebarInert_spec|].
  split; [apply contentInert_spec|].
  rewrite showScrim_spec, showModal_spec. reflexivity.
Qed.

(** C10: whenever the scrim is rendered the aside is not inert. *)
Theorem scrim_excludes_inert_aside (c : NavDrawer) (st : SignalStore) :
  showScrim (evalState (render c) st) = true ->
  sidebarInert (evalState (render c) st) = false.
Proof.
  rewrite showScrim_spec, sidebarInert_spec.
  destruct (isCollapsible c), (cell drawerOpenSignal st);
    cbn; congruence.
Qed.

Lemma scrim_excludes_inert_aside_witness :
  let c := mkNavDrawer true true in
  let st := mkStore true false false [] in
  showScrim (evalState (render c) st) = true
  /\ sidebarInert (evalState (render c) st) = false.
Proof.
  split; [reflexivity|].
  apply (scrim_excludes_inert_aside (mkNavDrawer true true)
           (mkStore true false false [])).
  reflexivity.
Defined.

(** C9: writing [false] to the open signal when it already holds
    [false] is a write that is performed (it is logged, nothing fails)
    and changes no cell; for every element state the template rendered
    afterwards, and so the inert attributes of the aside, the content
    and the spacer, are those rendered before. *)
Theorem set_open_false_idempotent (c : NavDrawer) (st : SignalStore) :
  cell drawerOpenSignal st = false ->
  let st' := execState (set_value drawerOpenSignal false) st in
  sidebarInert (evalState (render c) st')
  = sidebarInert (evalState (render c) st)
  /\ contentInert (evalState (render c) st')
     = contentInert (evalState (render c) st)
  /\ evalState (render c) st' = evalState (render c) st
  /\ (forall s, cell s st' = cell s st)
  /\ writeLog st' = (drawerOpenSignal, false) :: writeLog st.
Proof.
  destruct st as [o ic isb log]. cbn [cell drawerOpen_cell].
  intros ->. destruct c as [[|] ?], ic, isb; cbn;
    (repeat split; try reflexivity); intros []; reflexivity.
Qed.

Lemma set_open_false_idempotent_witness :
  let c := mkNavDrawer true true in
  let st := mkStore false false true [] in
  let st' := execState (set_value drawerOpenSignal false) st in
  sidebarInert (evalState (render c) st') = true
  /\ sidebarInert (evalState (render c) st) = true
  /\ contentInert (evalState (render c) st')
     = contentInert (evalState (render c) st).
Proof.
  split; [reflexivity|]. split; [reflexivity|].
  apply (set_open_false_idempotent (mkNavDrawer true true)
           (mkStore false false true [])).
  reflexivity.
Defined.

(** ** Dismissal *)

(** C7, refuted: in Inline mode with the open signal true the drawer is
    not shown modally, yet the click is no already-false write: it
    turns the open signal from true to false. *)
Lemma scrim_click_changes_open_when_Inline :
  let c := mkNavDrawer false true in
  let st := mkStore true false false [] in
  ~ click_is_noop_unless_modal c st
  /\ mode c = Inline
  /\ showScrim (evalState (render c) st) = false
  /\ cell drawerOpenSignal st = true
  /\ cell drawerOpenSignal (execState (onScrimClick c) st) = false.
Proof.
  cbn zeta. split; [|repeat split; reflexivity].
  unfold click_is_noop_unless_modal. intros H.
  destruct (H eq_refl) as [E _]. discriminate E.
Qed.

(** C7, amended: [onScrimClick] is defined in every state; it writes
    [false] to the open signal, once, and changes neither inert signal,
    nor the element, nor the window, so each cell afterwards is [false]
    for the open signal and what it was for the others.  A render after
    it shows no scrim, so a scrim that was not shown stays not shown.
    The write changes no cell when the open signal was already false, as
    it is whenever the mode is Collapsible and the drawer is not shown
    modally; in Inline mode with the open signal true, where the drawer
    is not shown modally either, it does change the open signal, from
    true to false. *)
Theorem onScrimClick_only_closes (c : NavDrawer) (st : SignalStore) :
  let st' := execState (onScrimClick c) st in
  cell drawerOpenSignal st' = false
  /\ cell inertContentSignal st' = cell inertContentSignal st
  /\ cell inertSidebarSignal st' = cell inertSidebarSignal st
  /\ writeLog st' = (drawerOpenSignal, false) :: writeLog st
  /\ (forall w : World,
         this (handle ClickScrim w) = this w
         /\ window (handle ClickScrim w) = window w)
  /\ showScrim (evalState (render c) st') = false
  /\ (cell drawerOpenSignal st = false -> forall s, cell s st' = cell s st)
  /\ (showScrim (evalState (render c) st) = false ->
      mode c = Collapsible -> forall s, cell s st' = cell s st)
  /\ (forall s,
         cell s st'
         = match s with drawerOpenSignal => false | _ => cell s st end)
  /\ (mode c = Inline -> cell drawerOpenSignal st = true ->
      showScrim (evalState (render c) st) = false
      /\ cell drawerOpenSignal st' <> cell drawerOpenSignal st).
Proof.
  destruct st as [o ic isb log]. cbn zeta.
  repeat match goal with |- _ /\ _ => split end; try reflexivity.
  - intros w. split; reflexivity.
  - destruct c as [[|] ?], ic, isb; reflexivity.
  - cbn. intros -> []; reflexivity.
  - destruct c as [[|] ?]; cbn; [|discriminate].
    destruct o; cbn; [discriminate|]. intros _ _ []; reflexivity.
  - intros []; reflexivity.
  - destruct c as [[|] ?]; cbn; [discriminate|].
    intros _ ->. split; [destruct ic, isb; reflexivity | discriminate].
Qed.

Lemma onScrimClick_only_closes_witness :
  let c := mkNavDrawer true true in
  let st := mkStore false true true [] in
  showScrim (evalState (render c) st) = false
  /\ mode c = Collapsible
  /\ forall s, cell s (execState (onScrimClick c) st) = cell s st.
Proof.
  split; [reflexivity|]. split; [reflexivity|].
  apply (onScrimClick_only_closes (mkNavDrawer true true)
           (mkStore false true true [])); reflexivity.
Defined.

(** ** Before and after the first measurement *)

Lemma handle_all_ok (es : list Event) :
  forall w, measured_ok w ->
  measured_ok (handle_all es w)
  /\ hasUpdated (this (handle_all es w)) = hasUpdated (this w).
Proof.
  induction es as [|e es IH]; intros w H; cbn.
  - split; [exact H | reflexivity].
  - destruct (IH (handle e w) (handle_ok e w H)) as [H1 H2].
    split; [exact H1|]. rewrite <- (handle_hasUpdated e w). exact H2.
Qed.

Lemma unmeasured_is_Inline (w : World) :
  measured_ok w -> hasUpdated (this w) = false ->
  mode (this w) = Inline
  /\ showScrim (evalState (render (this w)) (signals w)) = false.
Proof.
  unfold measured_ok. intros H U. rewrite U in H. destruct H as [_ H].
  unfold mode. rewrite showScrim_spec, H. split; reflexivity.
Qed.

Lemma measured_is_classified (w : World) :
  measured_ok w -> hasUpdated (this w) = true ->
  mode (this w) = classify (innerWidth (window w)) 1500.
Proof.
  unfold measured_ok. intros H U. rewrite U in H. destruct H as [_ H].
  unfold mode, classify. rewrite H. reflexivity.
Qed.

Lemma updates_worlds_ok (w : World) :
  measured_ok w -> Forall (fun f : Frame => measured_ok (fst f))
                     (fst (updates w)).
Proof.
  intros H. unfold updates.
  pose proof (update_ok w H) as [H1 _].
  assert (F1 : fst (fst (update w)) = w).
  { unfold update. rewrite runState_render.
    destruct (hasUpdated (this w)); [reflexivity|].
    destruct (firstUpdated _ _); reflexivity. }
  destruct (update w) as [f1 w1]. cbn [fst snd] in *.
  destruct (Bool.eqb _ _).
  - cbn. constructor; [rewrite F1; exact H | constructor].
  - assert (F2 : fst (fst (update w1)) = w1).
    { unfold update. rewrite runState_render.
      destruct (hasUpdated (this w1)); [reflexivity|].
      destruct (firstUpdated _ _); reflexivity. }
    destruct (update w1) as [f2 w2]. cbn [fst snd] in *.
    constructor; [rewrite F1; exact H|].
    constructor; [rewrite F2; exact H1 | constructor].
Qed.

Lemma run_from_worlds_ok (es : list Event) :
  forall w, measured_ok w ->
  Forall (fun f : Frame => measured_ok (fst f)) (fst (run_from es w)).
Proof.
  induction es as [|e es IH]; intros w H; cbn [run_from].
  - constructor.
  - pose proof (updates_worlds_ok _ (handle_ok e w H)) as F.
    pose proof (updates_ok _ (handle_ok e w H)) as [H1 _].
    destruct (updates (handle e w)) as [fs w1]. cbn [fst snd] in *.
    specialize (IH w1 H1). destruct (run_from es w1) as [fs' w2].
    cbn [fst] in *. apply Forall_app. split; assumption.
Qed.

Lemma run_worlds_ok (widthPx : Z) (st : SignalStore) (es : list Event) :
  Forall (fun f : Frame => measured_ok (fst f)) (fst (run widthPx st es)).
Proof.
  unfold run.
  pose proof (updates_worlds_ok _ (mount_ok widthPx st)) as F.
  pose proof (updates_ok _ (mount_ok widthPx st)) as [H1 _].
  destruct (updates (mount widthPx st)) as [fs w1]. cbn [fst snd] in *.
  pose proof (run_from_worlds_ok es w1 H1) as F'.
  destruct (run_from es w1) as [fs' w2].
  cbn [fst] in *. apply Forall_app. split; assumption.
Qed.

(** The first frame of a run is rendered in the world as mounted. *)
Lemma run_first_frame (widthPx : Z) (st : SignalStore) (es : list Event) :
  exists fs,
    fst (run widthPx st es)
    = (mount widthPx st, evalState (render new_NavDrawer) st) :: fs.
Proof.
  unfold run, updates.
  assert (F : fst (update (mount widthPx st))
              = (mount widthPx st, evalState (render new_NavDrawer) st)).
  { unfold update. rewrite runState_render. reflexivity. }
  destruct (update (mount widthPx st)) as [f1 w1]. cbn [fst snd] in *.
  subst f1.
  destruct (Bool.eqb _ _).
  - destruct (run_from es w1) as [fs' w2]. cbn. eauto.
  - destruct (update w1) as [f2 w2].
    destruct (run_from es w2) as [fs' w3]. cbn. eauto.
Qed.

(** C8: the element is constructed with [isCollapsible = false], that
    is in Inline mode.  Until [firstUpdated] has measured the viewport,
    whatever signal writes, clicks and resizes happen first and whatever
    the store holds, the mode stays Inline and [render] returns a
    template without scrim; the first frame of every run is such a
    render, and so is every frame whose world has not been measured. *)
Theorem default_mode_is_Inline :
  mode new_NavDrawer = Inline
  /\ (forall st : SignalStore,
         showScrim (evalState (render new_NavDrawer) st) = false)
  /\ (forall (widthPx : Z) (st : SignalStore) (es : list Event),
         let w := handle_all es (mount widthPx st) in
         mode (this w) = Inline
         /\ showScrim (evalState (render (this w)) (signals w)) = false)
  /\ (forall (widthPx : Z) (st : SignalStore) (es : list Event),
         exists t fs,
           fst (run widthPx st es) = (mount widthPx st, t) :: fs
           /\ showScrim t = false)
  /\ (forall (widthPx : Z) (st : SignalStore) (es : list Event),
         Forall
           (fun f : Frame =>
              hasUpdated (this (fst f)) = false ->
              mode (this (fst f)) = Inline /\ showScrim (snd f) = false)
           (fst (run widthPx st es))).
Proof.
  split; [reflexivity|].
  split; [intros st; rewrite showScrim_spec; reflexivity|].
  split; [|split].
  - intros widthPx st es w.
    destruct (handle_all_ok es _ (mount_ok widthPx st)) as [H U].
    apply unmeasured_is_Inline; [exact H | exact U].
  - intros widthPx st es.
    destruct (run_first_frame widthPx st es) as [fs E].
    exists (evalState (render new_NavDrawer) st), fs.
    split; [exact E | rewrite showScrim_spec; reflexivity].
  - intros widthPx st es.
    pose proof (run_worlds_ok widthPx st es) as Hok.
    pose proof (run_derived widthPx st es) as Hd.
    rewrite Forall_forall in *. intros [w t] Hin U.
    specialize (Hok _ Hin). specialize (Hd _ Hin).
    unfold derived in Hd. cbn [fst snd] in *. subst t.
    apply unmeasured_is_Inline; assumption.
Qed.

(** ** The classifier *)

(** C4: the classification made by a [max-width] query is a function of
    the width and the threshold alone: Collapsible when the width is at
    most the threshold, the threshold itself included, and Inline
    otherwise.  [firstUpdated] classifies against 1500px, and after any
    run the element's mode is the classification of the window's current
    width against that same 1500px, as it is in every frame rendered
    after the first measurement. *)
Theorem classify_spec :
  (forall widthPx thresholdPx : Z,
      classify widthPx thresholdPx
      = if widthPx <=? thresholdPx then Collapsible else Inline)
  /\ (forall widthPx thresholdPx : Z,
         classify widthPx thresholdPx = Collapsible
         <-> widthPx <= thresholdPx)
  /\ (forall widthPx thresholdPx : Z,
         classify widthPx thresholdPx = Inline <-> thresholdPx < widthPx)
  /\ (forall thresholdPx : Z, classify thresholdPx thresholdPx = Collapsible)
  /\ (forall (c : NavDrawer) (win : Window),
         mode (fst (firstUpdated c win)) = classify (innerWidth win) 1500)
  /\ (forall (widthPx : Z) (st : SignalStore) (es : list Event),
         let w := snd (run widthPx st es) in
         mode (this w) = classify (innerWidth (window w)) 1500)
  /\ (forall (widthPx : Z) (st : SignalStore) (es : list Event),
         Forall
           (fun f : Frame =>
              hasUpdated (this (fst f)) = true ->
              mode (this (fst f))
              = classify (innerWidth (window (fst f))) 1500)
           (fst (run widthPx st es))).
Proof.
  assert (E : forall w t : Z,
             classify w t = if w <=? t then Collapsible else Inline)
    by reflexivity.
  split; [exact E|].
  split; [|split; [|split; [|split; [|split]]]].
  - intros w t. rewrite E. destruct (Z.leb_spec w t); split;
      try discriminate; try reflexivity; lia.
  - intros w t. rewrite E. destruct (Z.leb_spec w t); split;
      try discriminate; try reflexivity; lia.
  - intros t. rewrite E, Z.leb_refl. reflexivity.
  - reflexivity.
  - intros widthPx st es w. destruct (run_ok widthPx st es) as [H U].
    apply measured_is_classified; assumption.
  - intros widthPx st es.
    pose proof (run_worlds_ok widthPx st es) as Hok.
    rewrite Forall_forall in *. intros f Hin U.
    apply measured_is_classified; [apply Hok; exact Hin | exact U].
Qed.

(** ** Timing across transitions *)

Lemma timing_profile (w : World) :
  timing (evalState (render (this w)) (signals w)) = profile (state_of w).
Proof.
  destruct w as [c win st]. unfold state_of, profile.
  cbn [this signals fst snd]. rewrite is_Collapsible_mode.
  by_cases_on c st.
Qed.

(** C5, refuted: no two transitions into the same state differ in
    timing, whatever their previous states. *)
Lemma timing_ignores_previous_state : ~ timing_depends_on_previous.
Proof.
  intros (prev1 & es1 & prev2 & es2 & Hnext & _ & Hdiff).
  apply Hdiff. unfold derive_after. cbn zeta.
  rewrite !timing_profile, Hnext. reflexivity.
Qed.

(** C5, amended: the timing of a render is a function of the state being
    rendered alone.  Two transitions that end in the same (mode, open)
    state yield the same slide duration, content-opacity duration and
    easing, from whatever states and by whatever events they got there:
    the long profile when that state is modal, the short one otherwise. *)
Theorem timing_determined_by_next_state
    (prev1 : World) (es1 : list Event) (prev2 : World) (es2 : list Event) :
  state_of (handle_all es1 prev1) = state_of (handle_all es2 prev2) ->
  timing (derive_after prev1 es1) = timing (derive_after prev2 es2)
  /\ timing (derive_after prev1 es1)
     = profile (state_of (handle_all es1 prev1)).
Proof.
  intros Hnext. unfold derive_after. cbn zeta.
  rewrite !timing_profile, Hnext. split; reflexivity.
Qed.

Lemma timing_determined_by_next_state_witness :
  let listening := mkWindow 1600 [max_width 1500] in
  let prev1 :=
    mkWorld (mkNavDrawer true true) (mkWindow 1200 [max_width 1500])
      (mkStore false false false []) in
  let prev2 :=
    mkWorld (mkNavDrawer false true) listening
      (mkStore true false false []) in
  let es1 := [SetSignal drawerOpenSignal true] in
  let es2 := [Resize 1200] in
  state_of prev1 = (Collapsible, false)
  /\ state_of prev2 = (Inline, true)
  /\ state_of (handle_all es1 prev1) = (Collapsible, true)
  /\ timing (derive_after prev1 es1)
     = (500, 300, Named EASING.EMPHASIZED)
  /\ timing (derive_after prev1 es1) = timing (derive_after prev2 es2).
Proof.
  cbn zeta.
  split; [reflexivity|]. split; [reflexivity|].
  split; [reflexivity|]. split; [reflexivity|].
  apply (timing_determined_by_next_state
           (mkWorld (mkNavDrawer true true)
              (mkWindow 1200 [max_width 1500])
              (mkStore false false false []))
           [SetSignal drawerOpenSignal true]
           (mkWorld (mkNavDrawer false true)
              (mkWindow 1600 [max_width 1500])
              (mkStore true false false []))
           [Resize 1200]).
  reflexivity.
Defined.

(** ** The inert signals *)

(** C6, refuted: collapsible and closed, with both inert signals false,
    the aside is rendered inert while [inertSidebarSignal] still holds
    [false] and no write has happened at all. *)
Lemma render_does_not_publish_inert :
  let c := mkNavDrawer true true in
  let st := mkStore false false false [] in
  ~ publishes_inert c st
  /\ sidebarInert (evalState (render c) st) = true
  /\ cell inertSidebarSignal (execState (render c) st) = false
  /\ writeLog (execState (render c) st) = [].
Proof.
  cbn zeta. split; [|repeat split; reflexivity].
  unfold publishes_inert. cbn. intros [H _]. discriminate H.
Qed.

Lemma update_signals (w : World) : signals (snd (update w)) = signals w.
Proof.
  unfold update. rewrite runState_render.
  destruct (hasUpdated (this w)); [reflexivity|].
  destruct (firstUpdated _ _); reflexivity.
Qed.

Lemma updates_signals (w : World) : signals (snd (updates w)) = signals w.
Proof.
  unfold updates.
  pose proof (update_signals w) as H1.
  destruct (update w) as [f1 w1]. cbn [snd] in *.
  destruct (Bool.eqb _ _); [exact H1|].
  pose proof (update_signals w1) as H2.
  destruct (update w1) as [f2 w2]. cbn [snd] in *. congruence.
Qed.

(** C6, amended: [render] writes no signal.  It leaves the store, write
    log included, as it found it, and only reads the inert signals: the
    spacer's inert attribute is [inertSidebarSignal.value] and the
    content's is [showModal || inertContentSignal.value], while the
    value computed for the aside goes to the aside's attribute alone.
    Nor does anything else the element runs write an inert signal: after
    a scrim click or a resize and the updates that follow, and after the
    updates on mounting, both inert cells hold what they held. *)
Theorem render_only_reads_inert_signals (c : NavDrawer) (st : SignalStore) :
  let t := evalState (render c) st in
  execState (render c) st = st
  /\ spacer_inert (spacer (body t)) = cell inertSidebarSignal st
  /\ contentInert t = showScrim t || cell inertContentSignal st
  /\ sidebarInert t = isCollapsible c && negb (cell drawerOpenSignal st)
  /\ (forall w : World, signals (snd (updates w)) = signals w)
  /\ (forall (w : World) (widthPx : Z),
         signals (snd (updates (handle (Resize widthPx) w))) = signals w)
  /\ (forall w : World,
         let st' := signals (snd (updates (handle ClickScrim w))) in
         cell inertSidebarSignal st' = cell inertSidebarSignal (signals w)
         /\ cell inertContentSignal st' = cell inertContentSignal (signals w)
         /\ writeLog st' = (drawerOpenSignal, false) :: writeLog (signals w)).
Proof.
  cbn zeta.
  split; [apply render_reads_only|].
  split; [by_cases_on c st|].
  split; [apply contentInert_spec|].
  split; [apply sidebarInert_spec|].
  split; [exact updates_signals|].
  split.
  - intros w widthPx. rewrite updates_signals. reflexivity.
  - intros w. rewrite updates_signals.
    destruct w as [c' win [o ic isb log]]. repeat split.
Qed.

(** * Further properties of the element *)

(** ** Resizing *)

Lemma handle_Resize_measured (w : World) (b : Z) :
  measured_ok w -> hasUpdated (this w) = true ->
  this (handle (Resize b) w) = mkNavDrawer (matches (max_width 1500) b) true.
Proof.
  destruct w as [[ic hu] [width ls] st]. unfold measured_ok.
  cbn [this window hasUpdated isCollapsible changeListeners innerWidth].
  intros H ->. destruct H as [-> ->].
  cbn -[Z.leb].
  destruct (width <=? 1500), (b <=? 1500); reflexivity.
Qed.

(** X1: once the viewport has been measured, or before any listener
    exists, the element's state after a resize depends on the last width
    only: resizing to [a] and then to [b] leaves the page as resizing
    straight to [b] does. *)
Theorem resize_depends_on_last_width (w : World) (a b : Z) :
  measured_ok w ->
  handle (Resize b) (handle (Resize a) w) = handle (Resize b) w.
Proof.
  intros H.
  destruct (hasUpdated (this w)) eqn:U.
  - pose proof (handle_ok (Resize a) w H) as Ha.
    pose proof (handle_hasUpdated (Resize a) w) as Ua. rewrite U in Ua.
    pose proof (handle_Resize_measured _ b Ha Ua) as E1.
    pose proof (handle_Resize_measured _ b H U) as E2.
    destruct w as [c [width ls] st].
    cbn [handle window signals this innerWidth changeListeners] in *.
    rewrite E1, E2. reflexivity.
  - destruct w as [[ic hu] [width ls] st]. unfold measured_ok in H.
    cbn in U. subst hu. cbn in H. destruct H as [-> ->]. reflexivity.
Qed.

Lemma resize_depends_on_last_width_witness :
  let w := snd (run 1200 (mkStore true false false []) []) in
  handle (Resize 1400) (handle (Resize 1600) w) = handle (Resize 1400) w
  /\ this (handle (Resize 1600) w) <> this w.
Proof.
  split.
  - apply (resize_depends_on_last_width
             (snd (run 1200 (mkStore true false false []) []))
             1600 1400).
    split; reflexivity.
  - discriminate.
Defined.

(** X2: after the first measurement a resize to width [b] is followed
    by a render that shows the scrim exactly when [b] is at most 1500
    and the open signal, which the resize leaves alone, is true; the
    aside is inert exactly when [b] is at most 1500 and the signal is
    false. *)
Theorem render_after_resize (w : World) (b : Z) :
  measured_ok w -> hasUpdated (this w) = true ->
  let w' := handle (Resize b) w in
  let t := evalState (render (this w')) (signals w') in
  signals w' = signals w
  /\ showScrim t = (b <=? 1500) && cell drawerOpenSignal (signals w)
  /\ sidebarInert t = (b <=? 1500) && negb (cell drawerOpenSignal (signals w)).
Proof.
  intros H U. cbn zeta.
  rewrite showScrim_spec, sidebarInert_spec.
  rewrite (handle_Resize_measured w b H U).
  repeat split; reflexivity.
Qed.

Lemma render_after_resize_witness :
  let w := snd (run 1200 (mkStore true false false []) []) in
  let back := handle (Resize 1300) (handle (Resize 1600) w) in
  showScrim (evalState (render (this (handle (Resize 1600) w)))
               (signals (handle (Resize 1600) w))) = false
  /\ showScrim (evalState (render (this back)) (signals back)) = true.
Proof.
  split; [reflexivity|].
  apply (render_after_resize
           (handle (Resize 1600)
              (snd (run 1200 (mkStore true false false []) [])))
           1300); split; reflexivity.
Defined.

(** X3: [firstUpdated] runs once.  After any run the window holds
    exactly one change listener of the element, on the 1500px query, and
    no frame is rendered in a world that holds more than one. *)
Theorem one_change_listener
    (widthPx : Z) (st : SignalStore) (es : list Event) :
  changeListeners (window (snd (run widthPx st es))) = [max_width 1500]
  /\ Forall
       (fun f : Frame =>
          changeListeners (window (fst f))
          = if hasUpdated (this (fst f)) then [max_width 1500] else [])
       (fst (run widthPx st es)).
Proof.
  split.
  - destruct (run_ok widthPx st es) as [H U].
    unfold measured_ok in H. rewrite U in H. apply H.
  - eapply Forall_impl; [|apply run_worlds_ok].
    intros [w t]. unfold measured_ok. cbn [fst].
    destruct (hasUpdated (this w)); intros [H _]; exact H.
Qed.

(** ** Dismissing the modal drawer *)

(** X4: from a state that shows the scrim, a scrim click followed by a
    render gives the closed collapsible drawer: no scrim, the aside
    inert, the [open] class gone, the short timing profile, and the
    content inert only if [inertContentSignal] says so. *)
Theorem scrim_click_closes_modal (c : NavDrawer) (st : SignalStore) :
  showScrim (evalState (render c) st) = true ->
  let t' := evalState (render c) (execState (onScrimClick c) st) in
  showScrim t' = false
  /\ sidebarInert t' = true
  /\ contentInert t' = cell inertContentSignal st
  /\ body_class (body t') = ""
  /\ data_animation_speed t' = "short"
  /\ timing t' = (150, 150, Named EASING.EMPHASIZED_ACCELERATE).
Proof.
  rewrite showScrim_spec.
  destruct c as [[|] hu]; destruct st as [[|] ic isb log];
    cbn [isCollapsible cell drawerOpen_cell andb]; try discriminate.
  intros _. destruct ic, isb; repeat split; reflexivity.
Qed.

Lemma scrim_click_closes_modal_witness :
  let c := mkNavDrawer true true in
  let st := mkStore true false true [] in
  contentInert (evalState (render c) st) = true
  /\ contentInert (evalState (render c) (execState (onScrimClick c) st))
     = false.
Proof.
  split; [reflexivity|].
  apply (scrim_click_closes_modal (mkNavDrawer true true)
           (mkStore true false true [])).
  reflexivity.
Defined.

Lemma handle_open_true (e : Event) (w : World) :
  cell drawerOpenSignal (signals (handle e w)) = true ->
  cell drawerOpenSignal (signals w) = true
  \/ e = SetSignal drawerOpenSignal true.
Proof.
  destruct w as [c win [o ic isb log]].
  destruct e as [[| |] v| |b]; cbn; auto; try discriminate.
  intros ->. right. reflexivity.
Qed.

Lemma run_from_open_true (es : list Event) :
  forall w,
    cell drawerOpenSignal (signals (snd (run_from es w))) = true ->
    cell drawerOpenSignal (signals w) = true
    \/ In (SetSignal drawerOpenSignal true) es.
Proof.
  induction es as [|e es IH]; intros w; cbn [run_from].
  - cbn. auto.
  - pose proof (updates_signals (handle e w)) as S1.
    destruct (updates (handle e w)) as [fs w1]. cbn [snd] in S1.
    specialize (IH w1). destruct (run_from es w1) as [fs' w2].
    cbn [snd] in *. intros H. destruct (IH H) as [H1|H1].
    + rewrite S1 in H1. destruct (handle_open_true e w H1) as [H2|H2].
      * left. exact H2.
      * right. left. exact H2.
    + right. right. exact H1.
Qed.

(** X5: the element never opens the drawer.  If the open signal is true
    at the end of a run, it was true at the start or some code outside
    the element wrote [true] to it during the run. *)
Theorem open_only_from_outside
    (widthPx : Z) (st : SignalStore) (es : list Event) :
  cell drawerOpenSignal (signals (snd (run widthPx st es))) = true ->
  cell drawerOpenSignal st = true
  \/ In (SetSignal drawerOpenSignal true) es.
Proof.
  unfold run.
  pose proof (updates_signals (mount widthPx st)) as S1.
  destruct (updates (mount widthPx st)) as [fs w1]. cbn [snd] in S1.
  pose proof (run_from_open_true es w1) as H.
  destruct (run_from es w1) as [fs' w2]. cbn [snd] in *.
  intros E. destruct (H E) as [H1|H1]; [left|right; exact H1].
  rewrite S1 in H1. exact H1.
Qed.

Lemma open_only_from_outside_witness :
  let st := mkStore false false false [] in
  let es := [Resize 1000; SetSignal drawerOpenSignal true; Resize 1700] in
  cell drawerOpenSignal (signals (snd (run 1800 st es))) = true
  /\ (cell drawerOpenSignal st = true
      \/ In (SetSignal drawerOpenSignal true) es).
Proof.
  split; [reflexivity|].
  apply (open_only_from_outside 1800 (mkStore false false false [])
           [Resize 1000; SetSignal drawerOpenSignal true; Resize 1700]).
  reflexivity.
Defined.

(** ** Mounting *)

(** X6: what mounting renders.  On a viewport wider than 1500px there
    is one frame, Inline and without scrim.  On a narrower one there are
    two: the first still Inline and without scrim, the second
    Collapsible, with the scrim exactly when the open signal is true. *)
Theorem mount_frames (widthPx : Z) (st : SignalStore) :
  map (fun f : Frame => (mode (this (fst f)), showScrim (snd f)))
    (fst (updates (mount widthPx st)))
  = if widthPx <=? 1500
    then [(Inline, false); (Collapsible, cell drawerOpenSignal st)]
    else [(Inline, false)].
Proof.
  unfold updates, update, mount.
  cbn [this window signals hasUpdated new_NavDrawer].
  rewrite runState_render.
  cbn -[render evalState Z.leb showScrim].
  destruct (widthPx <=? 1500); cbn -[render evalState showScrim].
  - rewrite runState_render. cbn -[render evalState showScrim].
    rewrite !showScrim_spec. reflexivity.
  - rewrite showScrim_spec. reflexivity.
Qed.

(** * Properties of the stylesheet *)

Lemma candidates_ext (sheet : list Rule) (d d' : Device)
    (path : list Element) (longhand : string) :
  Forall
    (fun r => Forall (fun m => media_holds d m = media_holds d' m) (media r))
    sheet ->
  candidates sheet d path longhand = candidates sheet d' path longhand.
Proof.
  unfold candidates. induction 1 as [|r sheet Hr _ IH]; cbn [flat_map].
  - reflexivity.
  - rewrite IH. f_equal.
    assert (E : forallb (media_holds d) (media r)
                = forallb (media_holds d') (media r)).
    { induction Hr as [|m ms Hm _ IHm]; cbn [forallb].
      - reflexivity.
      - rewrite Hm, IHm. reflexivity. }
    rewrite E. reflexivity.
Qed.

(** The sheet tells widths apart at 600px and 1500px only. *)
Lemma computed_by_width_class
    (d : Device) (t : Template) (n : Node) (longhand : string) :
  computed d t n longhand
  = computed
      (mkDevice
         (if device_width d <=? 600 then 600
          else if device_width d <=? 1500 then 1500 else 1501)
         (device_pointer_fine d) (device_forced_colors d))
      t n longhand.
Proof.
  unfold computed. destruct (path_of t n) as [path|]; [|reflexivity].
  f_equal. apply candidates_ext.
  assert (N : media_holds d narrow
              = media_holds
                  (mkDevice
                     (if device_width d <=? 600 then 600
                      else if device_width d <=? 1500 then 1500 else 1501)
                     (device_pointer_fine d) (device_forced_colors d))
                  narrow).
  { cbn -[Z.leb]. destruct (Z.leb_spec (device_width d) 600);
      destruct (Z.leb_spec (device_width d) 1500);
      try reflexivity; lia. }
  assert (S : media_holds d (media_width (max_width 600))
              = media_holds
                  (mkDevice
                     (if device_width d <=? 600 then 600
                      else if device_width d <=? 1500 then 1500 else 1501)
                     (device_pointer_fine d) (device_forced_colors d))
                  (media_width (max_width 600))).
  { cbn -[Z.leb]. destruct (Z.leb_spec (device_width d) 600);
      destruct (Z.leb_spec (device_width d) 1500);
      try reflexivity; lia. }
  unfold styles.
  repeat (apply Forall_cons; [cbn [media]; repeat constructor; assumption|]).
  apply Forall_nil.
Qed.

(** Evaluates a computed value once the width class and every boolean
    the template depends on are known. *)
Ltac by_width_class width :=
  repeat match goal with
         | |- context [computed (mkDevice width ?p ?f) ?t ?n ?l] =>
             rewrite (computed_by_width_class (mkDevice width p f) t n l)
         end;
  cbn [device_width device_pointer_fine device_forced_colors];
  destruct (Z.leb_spec width 600); destruct (Z.leb_spec width 1500);
  try lia; cbn [andb negb];
  repeat match goal with
         | b : bool |- _ => destruct b
         end;
  try discriminate; repeat split; vm_compute; reflexivity.

(** X7: the pane follows the aside.  In every render the pane's
    transition lasts as long as the aside's slide animation, 500ms or
    150ms, and its timing function is the curve the sheet labels
    emphasized when the aside's easing is EMPHASIZED and the one it
    labels emphasize-accelerate otherwise. *)
Theorem pane_transition_matches_slide
    (c : NavDrawer) (st : SignalStore) (d : Device) :
  let t := evalState (render c) st in
  computed d t node_pane "transition-duration"
  = Some (css_time (slideDurationMs t))
  /\ computed d t node_pane "transition-timing-function"
     = Some (css match easingCurve t with
                 | Named EASING.EMPHASIZED => "cubic-bezier(0.3, 0, 0, 1)"
                 | _ => "cubic-bezier(0.3, 0, 0.8, 0.15)"
                 end).
Proof.
  destruct c as [ic hu]; destruct st as [o ic' isb log];
    destruct d as [width pf fc]. cbn zeta.
  by_width_class width.
Qed.

(** X8: once the viewport has been measured, the aside is moved off
    screen, and its slot made transparent, exactly when it is rendered
    inert.  Collapsible and open it sits at [translateX(0)] with an
    opaque slot; Inline the sheet declares neither property. *)
Theorem aside_hidden_iff_inert (w : World) (d : Device) :
  measured_ok w -> hasUpdated (this w) = true ->
  device_width d = innerWidth (window w) ->
  let t := evalState (render (this w)) (signals w) in
  computed d t node_aside "transform"
  = (if sidebarInert t then Some (css "translateX(-100%)")
     else if isCollapsible (this w) then Some (css "translateX(0)")
     else None)
  /\ computed d t node_aside_slot "opacity"
     = (if sidebarInert t then Some (css "0")
        else if isCollapsible (this w) then Some (css "1")
        else None).
Proof.
  destruct w as [[ic hu] [width ls] [o ic' isb log]];
    destruct d as [dw pf fc].
  unfold measured_ok.
  cbn [this window signals hasUpdated isCollapsible innerWidth
       changeListeners device_width matches].
  intros H -> ->. destruct H as [_ ->]. cbn zeta.
  by_width_class width.
Qed.

Lemma aside_hidden_iff_inert_witness :
  let w := snd (run 1200 (mkStore false false false []) []) in
  let t := evalState (render (this w)) (signals w) in
  sidebarInert t = true
  /\ computed (mkDevice 1200 true false) t node_aside "transform"
     = Some (css "translateX(-100%)").
Proof.
  split; [reflexivity|].
  apply (aside_hidden_iff_inert
           (snd (run 1200 (mkStore false false false []) []))
           (mkDevice 1200 true false)); try reflexivity.
  split; reflexivity.
Defined.

(** X9: once the viewport has been measured, a rendered scrim is fixed
    over the whole viewport and stacked directly under the aside: the
    scrim has [z-index] 11 and the aside, fixed as well, 12. *)
Theorem scrim_under_aside (w : World) (d : Device) :
  measured_ok w -> hasUpdated (this w) = true ->
  device_width d = innerWidth (window w) ->
  let t := evalState (render (this w)) (signals w) in
  showScrim t = true ->
  computed d t node_scrim "position" = Some (css "fixed")
  /\ computed d t node_scrim "inset" = Some (css "0")
  /\ computed d t node_scrim "z-index" = Some (css_integer 11)
  /\ computed d t node_aside "position" = Some (css "fixed")
  /\ computed d t node_aside "z-index" = Some (css_integer 12).
Proof.
  destruct w as [[ic hu] [width ls] [o ic' isb log]];
    destruct d as [dw pf fc].
  unfold measured_ok.
  cbn [this window signals hasUpdated isCollapsible innerWidth
       changeListeners device_width matches].
  intros H -> ->. destruct H as [_ ->]. cbn zeta.
  rewrite showScrim_spec.
  cbn [isCollapsible cell drawerOpen_cell].
  by_width_class width.
Qed.

Lemma scrim_under_aside_witness :
  let w := snd (run 1200 (mkStore true false false []) []) in
  let t := evalState (render (this w)) (signals w) in
  computed (mkDevice 1200 false true) t node_scrim "z-index"
  = Some (css_integer 11).
Proof.
  apply (scrim_under_aside
           (snd (run 1200 (mkStore true false false []) []))
           (mkDevice 1200 false true)); try reflexivity.
  split; reflexivity.
Defined.

(** X10: once the viewport has been measured, the spacer keeps the
    drawer's width free beside the content exactly in Inline mode; in
    Collapsible mode its minimum width is zero. *)
Theorem spacer_reserves_width_iff_inline (w : World) (d : Device) :
  measured_ok w -> hasUpdated (this w) = true ->
  device_width d = innerWidth (window w) ->
  let t := evalState (render (this w)) (signals w) in
  computed d t node_spacer "min-width"
  = Some (css match mode (this w) with
              | Inline => "var(--_drawer-width)"
              | Collapsible => "0px"
              end).
Proof.
  destruct w as [[ic hu] [width ls] [o ic' isb log]];
    destruct d as [dw pf fc].
  unfold measured_ok, mode.
  cbn [this window signals hasUpdated isCollapsible innerWidth
       changeListeners device_width matches].
  intros H -> ->. destruct H as [_ ->]. cbn zeta.
  by_width_class width.
Qed.

Lemma spacer_reserves_width_iff_inline_witness :
  let w := snd (run 1600 (mkStore true false false []) []) in
  let t := evalState (render (this w)) (signals w) in
  computed (mkDevice 1600 true false) t node_spacer "min-width"
  = Some (css "var(--_drawer-width)").
Proof.
  apply (spacer_reserves_width_iff_inline
           (snd (run 1600 (mkStore true false false []) []))
           (mkDevice 1600 true false)); try reflexivity.
  split; reflexivity.
Defined.

(** * Properties of the Sass mixins *)

Lemma append_inj_r (p a b : string) :
  String.append p a = String.append p b -> a = b.
Proof.
  induction p as [|ch p IH]; cbn; intros H.
  - exact H.
  - apply IH. congruence.
Qed.

Lemma declared_acc (block : list (string * Scss.CssExpr)) (name : string) :
  forall acc,
    fold_left
      (fun found d =>
         if String.eqb (fst d) name then Some (snd d) else found)
      block acc
    = match Scss.declared block name with
      | Some e => Some e
      | None => acc
      end.
Proof.
  unfold Scss.declared.
  induction block as [|d block IH]; intros acc; cbn [fold_left].
  - reflexivity.
  - rewrite IH. rewrite (IH (if String.eqb (fst d) name then _ else None)).
    destruct (fold_left _ block None); [reflexivity|].
    destruct (String.eqb (fst d) name); reflexivity.
Qed.

(** In a block the last declaration of a name holds. *)
Lemma declared_cons (d : string * Scss.CssExpr)
    (block : list (string * Scss.CssExpr)) (name : string) :
  Scss.declared (d :: block) name
  = match Scss.declared block name with
    | Some e => Some e
    | None => if String.eqb (fst d) name then Some (snd d) else None
    end.
Proof. unfold Scss.declared at 1. cbn [fold_left]. apply declared_acc. Qed.

Lemma map_get_absent (m : Scss.SassMap) (key : string) :
  ~ In key (map fst m) -> Scss.map_get m key = None.
Proof.
  induction m as [|[k v] m IH]; cbn; intros H.
  - reflexivity.
  - destruct (String.eqb_spec k key) as [E|E].
    + exfalso. apply H. left. exact E.
    + apply IH. intros Hin. apply H. right. exact Hin.
Qed.

(** What [theme] declares for a token's public custom property. *)
Lemma declared_theme (tokens : Scss.SassMap) (token : string) :
  NoDup (map fst tokens) ->
  Scss.declared (Scss.theme tokens)
    (String.append "--md-navigation-drawer-" token)
  = match Scss.map_get tokens token with
    | Some v =>
        if Scss.truthy v then Some (Scss.plain (Scss.interpolate v))
        else None
    | None => None
    end.
Proof.
  induction tokens as [|[k v] m IH]; intros ND.
  - reflexivity.
  - inversion ND as [|? ? Hk ND']; subst.
    specialize (IH ND'). cbn [Scss.map_get].
    change (Scss.theme ((k, v) :: m))
      with ((if Scss.truthy v
             then [(String.append "--md-navigation-drawer-" k,
                    Scss.plain (Scss.interpolate v))]
             else []) ++ Scss.theme m)%list.
    destruct (String.eqb_spec k token) as [E|E].
    + subst k. rewrite (map_get_absent m token Hk) in IH.
      destruct (Scss.truthy v); cbn [app].
      * rewrite declared_cons, IH. cbn [fst snd].
        rewrite String.eqb_refl. reflexivity.
      * exact IH.
    + destruct (Scss.truthy v); cbn [app].
      * rewrite declared_cons, IH. cbn [fst snd].
        destruct (String.eqb_spec
                    (String.append "--md-navigation-drawer-" k)
                    (String.append "--md-navigation-drawer-" token))
          as [E'|E'].
        -- apply append_inj_r in E'. contradiction.
        -- destruct (Scss.map_get m token) as [v'|]; [|reflexivity].
           destruct (Scss.truthy v'); reflexivity.
      * exact IH.
Qed.

Lemma theme_absent (m : Scss.SassMap) (token : string) :
  ~ In token (map fst m) ->
  filter
    (fun d : string * Scss.CssExpr =>
       String.eqb (fst d) (String.append "--md-navigation-drawer-" token))
    (Scss.theme m)
  = [].
Proof.
  induction m as [|[k v] m IH]; intros H.
  - reflexivity.
  - change (Scss.theme ((k, v) :: m))
      with ((if Scss.truthy v
             then [(String.append "--md-navigation-drawer-" k,
                    Scss.plain (Scss.interpolate v))]
             else []) ++ Scss.theme m)%list.
    rewrite filter_app, IH by (intros Hin; apply H; right; exact Hin).
    rewrite app_nil_r.
    destruct (Scss.truthy v); [|reflexivity]. cbn [filter fst].
    destruct (String.eqb_spec
                (String.append "--md-navigation-drawer-" k)
                (String.append "--md-navigation-drawer-" token))
      as [E|E]; [|reflexivity].
    apply append_inj_r in E. exfalso. apply H. left. exact E.
Qed.

(** X11: [theme] declares what [styles] reads.  For every token of the
    reference map [styles] emits a private custom property whose [var()]
    names the token's public property [--md-navigation-drawer-<token>]
    with the reference value as fallback.  For a map with distinct keys,
    [theme] declares that same public property exactly when the map
    gives the token a truthy value (anything but [null] and [false]),
    with that value's text, and never more than once. *)
Theorem theme_declares_what_styles_reads
    (tokens reference : Scss.SassMap) (token : string)
    (default : Scss.SassValue) :
  NoDup (map fst tokens) ->
  In (token, default) reference ->
  let public := String.append "--md-navigation-drawer-" token in
  In (String.append "--_" token,
      Scss.var public (Scss.interpolate default))
    (Scss.styles_tokens reference)
  /\ Scss.declared (Scss.theme tokens) public
     = match Scss.map_get tokens token with
       | Some v =>
           if Scss.truthy v then Some (Scss.plain (Scss.interpolate v))
           else None
       | None => None
       end
  /\ (List.length
        (filter
           (fun d : string * Scss.CssExpr => String.eqb (fst d) public)
           (Scss.theme tokens))
      <= 1)%nat.
Proof.
  intros ND Hin. cbn zeta. split; [|split].
  - unfold Scss.styles_tokens.
    apply (in_map
             (fun tv : string * Scss.SassValue =>
                let (token, value) := tv in
                (String.append "--_" token,
                 Scss.var (String.append "--md-navigation-drawer-" token)
                   (Scss.interpolate value)))
             reference (token, default) Hin).
  - apply declared_theme. exact ND.
  - clear Hin. induction tokens as [|[k v] m IH].
    + cbn. lia.
    + inversion ND as [|? ? Hk ND']; subst.
      change (Scss.theme ((k, v) :: m))
        with ((if Scss.truthy v
               then [(String.append "--md-navigation-drawer-" k,
                      Scss.plain (Scss.interpolate v))]
               else []) ++ Scss.theme m)%list.
      rewrite filter_app, length_app.
      destruct (String.eqb_spec k token) as [E|E].
      * subst k. rewrite (theme_absent m token Hk).
        destruct (Scss.truthy v); cbn [filter fst List.length];
          [destruct (String.eqb _ _)|]; cbn; lia.
      * specialize (IH ND').
        destruct (Scss.truthy v); cbn [filter fst List.length app];
          [|lia].
        destruct (String.eqb_spec
                    (String.append "--md-navigation-drawer-" k)
                    (String.append "--md-navigation-drawer-" token))
          as [E'|E'].
        -- apply append_inj_r in E'. contradiction.
        -- cbn [List.length]. lia.
Qed.

Lemma theme_declares_what_styles_reads_witness :
  let tokens :=
    [ ("container-color", Scss.sass_text "red");
      ("container-width", Scss.sass_null);
      ("standard-container-elevation", Scss.sass_text "0") ] in
  Scss.declared (Scss.theme tokens)
    "--md-navigation-drawer-standard-container-elevation"
  = Some (Scss.plain "0")
  /\ Scss.declared (Scss.theme tokens)
       "--md-navigation-drawer-container-width"
     = None.
Proof.
  split; [|reflexivity].
  apply (theme_declares_what_styles_reads
           [ ("container-color", Scss.sass_text "red");
             ("container-width", Scss.sass_null);
             ("standard-container-elevation", Scss.sass_text "0") ]
           Scss._reference "standard-container-elevation"
           (Scss.sass_text "0")).
  - repeat constructor; cbn; intuition discriminate.
  - do 6 right. left. reflexivity.
Defined.

(** * The first paint *)

(** X12: before [firstUpdated] has run, whatever the viewport, the
    template has no scrim and an aside that is not inert, and the open
    signal still sets the [open] class; so on a viewport of at most
    1500px the stylesheet alone places the aside, on screen when the
    signal is true and off screen otherwise, and on a wider one it
    declares no transform. *)
Theorem first_paint (st : SignalStore) (d : Device) :
  let t := evalState (render new_NavDrawer) st in
  showScrim t = false
  /\ sidebarInert t = false
  /\ contentInert t = cell inertContentSignal st
  /\ computed d t node_aside "transform"
     = (if device_width d <=? 1500
        then Some (css (if cell drawerOpenSignal st
                        then "translateX(0)" else "translateX(-100%)"))
        else None).
Proof.
  destruct st as [o ic isb log]; destruct d as [width pf fc]. cbn zeta.
  cbn [cell drawerOpen_cell inertContent_cell device_width].
  by_width_class width.
Qed.
